(** * File uploads in Django: the [myapp] upload and listing views

    A shallow embedding of [Django_Code_notes/Django_uploadfile.py]:
    the [Document] model, the [DocumentForm] model form, the views
    [upload_file] and [file_list], the URL configuration and the media
    settings.  The views are pure state-passing functions over the
    database table of [Document] rows and the files under [MEDIA_ROOT].

    What the source delegates to the framework is modelled from the
    behaviour of Django 4.2 and marked [Framework]; what depends on the
    storage backend (valid names, free names) or on the platform (MIME
    guessing) is a parameter.  A text is a [string] of characters, one
    [ascii] value for each character, which is its code point: the
    texts of the model are those of code points below 256, and
    [String.length] is Python's [len].  Points in time are integers. *)

From Stdlib Require Import ZArith List String Ascii Bool Sorted.
From stdpp Require Import base option list gmap strings.

Local Open Scope string_scope.
Local Open Scope list_scope.
Local Open Scope Z_scope.

(** ** Python [str] operations used by the framework code *)

Module Text.

(** [str.isspace] below code point 256: TAB, LF, VT, FF, CR, FS, GS,
    RS, US, SPACE, NEL (133) and the no-break space (160). *)
Definition isspace (c : ascii) : bool :=
  let n := nat_of_ascii c in
  ((9 <=? n)%nat && (n <=? 13)%nat) || ((28 <=? n)%nat && (n <=? 32)%nat) ||
  (n =? 133)%nat || (n =? 160)%nat.

(** [str.isprintable] below code point 256: all but the control
    characters (0 to 31, 127 to 159), the no-break space (160) and the
    soft hyphen (173). *)
Definition isprintable (c : ascii) : bool :=
  let n := nat_of_ascii c in
  ((32 <=? n)%nat && (n <=? 126)%nat) ||
  ((161 <=? n)%nat && negb (n =? 173)%nat).

Fixpoint lstrip (s : string) : string :=
  match s with
  | String c r => if isspace c then lstrip r else s
  | EmptyString => EmptyString
  end.

Fixpoint rev (s : string) : string :=
  match s with
  | String c r => rev r +:+ String c EmptyString
  | EmptyString => EmptyString
  end.

Definition rstrip (s : string) : string := rev (lstrip (rev s)).

(** [s.strip()] *)
Definition strip (s : string) : string := rstrip (lstrip s).

(** [c in s] *)
Fixpoint contains (c : ascii) (s : string) : bool :=
  match s with
  | String a r => Ascii.eqb a c || contains c r
  | EmptyString => false
  end.

(** [s.rsplit(sep)[-1]]: what follows the last [sep], all of [s] when
    [sep] does not occur. *)
Fixpoint after_last (sep : ascii) (s : string) : string :=
  match s with
  | String a r =>
      if contains sep r then after_last sep r
      else if Ascii.eqb a sep then r else s
  | EmptyString => EmptyString
  end.

(** [s] without the characters that fail [p]. *)
Fixpoint filter (p : ascii → bool) (s : string) : string :=
  match s with
  | String a r => if p a then String a (filter p r) else filter p r
  | EmptyString => EmptyString
  end.

(** [s.removeprefix(p)] when [s] starts with [p]. *)
Fixpoint strip_prefix (p s : string) : option string :=
  match p, s with
  | EmptyString, _ => Some s
  | String a p', String b s' =>
      if Ascii.eqb a b then strip_prefix p' s' else None
  | String _ _, EmptyString => None
  end.

End Text.

(** ** Requests *)

(** Python [bytes] *)
Abbreviation bytes := (list Byte.byte).

(** One [multipart/form-data] file part as the client sent it.  The
    [filename] is the one of the [Content-Disposition] header (after
    the parser's [html.unescape]). *)
Record FilePart := {
  filename : string;
  part_content_type : string;
  body : bytes
}.

(** [django.core.files.uploadedfile.UploadedFile]: [size] is the number
    of bytes received. *)
Record UploadedFile := {
  name : string;
  content_type : string;
  content : bytes
}.

Definition size (f : UploadedFile) : nat := length (content f).

(** [request.method], [request.POST] and the file parts of the body. *)
Record HttpRequest := {
  method : string;
  POST : gmap string string;
  multipart_files : gmap string FilePart
}.

(** The two path separators, [/] and the backslash. *)
Definition slash : ascii := "/".
Definition backslash : ascii := "092".

(** Framework ([MultiPartParser.sanitize_file_name]): the directory part
    of a client file name is dropped, for both separators, non-printable
    characters are removed, and a name that is then empty, [.] or [..]
    is no name. *)
Definition sanitize_file_name (file_name : string) : option string :=
  let file_name := Text.after_last slash file_name in
  let file_name := Text.after_last backslash file_name in
  let file_name := Text.filter Text.isprintable file_name in
  if String.eqb file_name EmptyString || String.eqb file_name "." ||
     String.eqb file_name ".."
  then None else Some file_name.

(** Framework ([MultiPartParser._parse]): a file part without a usable
    file name is skipped, any other becomes an [UploadedFile].  (An
    [UploadedFile] shortens a name of more than 255 characters; the
    form refuses such a name before and after, its bound being 100.) *)
Definition parse_file_part (p : FilePart) : option UploadedFile :=
  match sanitize_file_name (filename p) with
  | None => None
  | Some n =>
      Some {| name := n; content_type := part_content_type p;
              content := body p |}
  end.

(** [request.FILES] *)
Definition FILES (request : HttpRequest) : gmap string UploadedFile :=
  omap parse_file_part (multipart_files request).

(** ** The model: [myapp/models.py] *)

(** One row of [Document].  [pk] is the implicit auto-incrementing
    primary key ([id]), [document] the name of the stored file inside
    the storage, [uploaded_at] a point in time in microseconds. *)
Record Document := {
  pk : Z;
  description : string;
  document : string;
  uploaded_at : Z
}.

(** [description = CharField(max_length=255, blank=True)] *)
Definition description_max_length : nat := 255.

(** [document = FileField(upload_to='documents/')]; a [FileField] has
    [max_length=100] unless told otherwise. *)
Definition upload_to : string := "documents/".
Definition document_max_length : nat := 100.

(** ** The form: [myapp/forms.py] *)

(** Codes of the framework's [ValidationError]s. *)
Inductive ErrorCode :=
  | E_required
  | E_invalid
  | E_max_length
  | E_empty
  | E_null_characters_not_allowed.

(** [DocumentForm(request.POST, request.FILES)] is bound to its data,
    [DocumentForm()] is not. *)
Record DocumentForm := {
  is_bound : bool;
  data : gmap string string;
  files : gmap string UploadedFile
}.

Definition DocumentForm_bound (request : HttpRequest) : DocumentForm :=
  {| is_bound := true; data := POST request; files := FILES request |}.

Definition DocumentForm_unbound : DocumentForm :=
  {| is_bound := false; data := ∅; files := ∅ |}.

(** Framework ([forms.CharField.to_python], [strip=True]): the cleaned
    value of [description]; a missing value is the empty string. *)
Definition description_value (form : DocumentForm) : string :=
  match data form !! "description" with
  | Some v => Text.strip v
  | None => EmptyString
  end.

(** Framework ([forms.CharField.run_validators]): the length bound of
    the model field and no NUL character; [blank=True] makes the field
    optional. *)
Definition description_errors (form : DocumentForm) : list ErrorCode :=
  let v := description_value form in
  (if (description_max_length <? String.length v)%nat
   then [E_max_length] else []) ++
  (if Text.contains "000" v then [E_null_characters_not_allowed] else []).

(** Framework ([forms.FileField.clean] and [to_python]): the file is
    required; its name is checked against [max_length] and for being
    empty, then its size for being zero; the first failure is reported. *)
Definition clean_document (form : DocumentForm) : ErrorCode + UploadedFile :=
  match files form !! "document" with
  | None => inl E_required
  | Some f =>
      if (document_max_length <? String.length (name f))%nat
      then inl E_max_length
      else if String.eqb (name f) EmptyString then inl E_invalid
      else if (size f =? 0)%nat then inl E_empty
      else inr f
  end.

Definition document_errors (form : DocumentForm) : list ErrorCode :=
  match clean_document form with
  | inl e => [e]
  | inr _ => []
  end.

(** [form.errors], as pairs of field name and code, in the order of
    [fields = ('description', 'document')]; an unbound form has none. *)
Definition errors (form : DocumentForm) : list (string * ErrorCode) :=
  if is_bound form
  then map (pair "description") (description_errors form) ++
       map (pair "document") (document_errors form)
  else [].

(** [form.is_valid()] *)
Definition is_valid (form : DocumentForm) : bool :=
  is_bound form && match errors form with [] => true | _ => false end.

(** ** The storage backend and the database *)

(** The naming policy of the file storage ([django.core.files.storage]).
    [get_valid_name] cleans a file name for the storage, or refuses it;
    [get_available_name files name max_length] picks a name that is free
    among [files], or finds none.  Both raise [SuspiciousFileOperation]
    where they give [None] here.  That the chosen name is free is the
    contract of every backend. *)
Class Storage := {
  get_valid_name : string → option string;
  get_available_name : gmap string bytes → string → nat → option string;
  get_available_name_free files name max_length k :
    get_available_name files name max_length = Some k → files !! k = None
}.

(** The persistent state: the rows of the [Document] table in insertion
    order, the next value of the primary-key sequence, and the files
    under [MEDIA_ROOT] by name. *)
Record State := {
  documents : list Document;
  next_id : Z;
  media : gmap string bytes
}.

Definition init : State :=
  {| documents := []; next_id := 1; media := ∅ |}.

(** What a request finds on the server: the clock ([timezone.now()]),
    whether the database accepts the [INSERT], and [settings.DEBUG]. *)
Record Env := {
  now : Z;
  insert_ok : bool;
  DEBUG : bool
}.

Inductive Exception :=
  | SuspiciousFileOperation
  | DatabaseError
  | ValueError.

(** The [context] handed to a template. *)
Inductive Context :=
  | ctx_form (form : DocumentForm)
  | ctx_documents (documents : list Document).

Inductive HttpResponse :=
  | redirect (to : string)
  | render (template_name : string) (context : Context)
  | raised (e : Exception)
  | FileResponse (content : bytes) (content_type : string)
  | Http404
  | admin_site (route : string).

Section Views.

Context `{Storage}.

(** [mimetypes.guess_type], with [serve]'s fallback applied. *)
Variable guess_type : string → string.

(** Framework ([FieldFile.save]): the file goes to the storage under a
    valid, free name below [upload_to]. *)
Definition FieldFile_save (files : gmap string bytes) (f : UploadedFile)
  : Exception + (gmap string bytes * string) :=
  match get_valid_name (name f) with
  | None => inl SuspiciousFileOperation
  | Some valid =>
      match get_available_name files (upload_to +:+ valid)
              document_max_length with
      | None => inl SuspiciousFileOperation
      | Some k => inr (<[k := content f]> files, k)
      end
  end.

(** Framework ([Model.save] of a new [Document]): [FileField.pre_save]
    writes the file, [auto_now_add=True] stamps [uploaded_at] with the
    clock, then the row is inserted under the next primary key.  An
    exception of the [INSERT] propagates; the file is written by then. *)
Definition Document_save (env : Env) (st : State) (descr : string)
    (f : UploadedFile) : State * (Exception + Document) :=
  match FieldFile_save (media st) f with
  | inl e => (st, inl e)
  | inr (files', k) =>
      if insert_ok env then
        let d := {| pk := next_id st; description := descr;
                    document := k; uploaded_at := now env |} in
        ({| documents := documents st ++ [d];
            next_id := next_id st + 1;
            media := files' |}, inr d)
      else
        ({| documents := documents st;
            next_id := next_id st;
            media := files' |}, inl DatabaseError)
  end.

(** [form.save()]: refuses a form with errors, else saves the instance
    built from the cleaned data. *)
Definition form_save (env : Env) (st : State) (form : DocumentForm)
  : State * (Exception + Document) :=
  match errors form, clean_document form with
  | [], inr f => Document_save env st (description_value form) f
  | _, _ => (st, inl ValueError)
  end.

(** ** The views: [myapp/views.py] *)

Definition upload_file (env : Env) (st : State) (request : HttpRequest)
  : State * HttpResponse :=
  if String.eqb (method request) "POST" then
    let form := DocumentForm_bound request in
    if is_valid form then
      match form_save env st form with
      | (st', inr _) => (st', redirect "file_list")
      | (st', inl e) => (st', raised e)
      end
    else (st, render "myapp/upload_file.html" (ctx_form form))
  else
    let form := DocumentForm_unbound in
    (st, render "myapp/upload_file.html" (ctx_form form)).

(** [Document.objects.all()]: every row, in the order of the table; the
    model declares no [ordering] and the view asks for none. *)
Definition objects_all (st : State) : list Document := documents st.

Definition file_list (st : State) (request : HttpRequest)
  : State * HttpResponse :=
  let documents := objects_all st in
  (st, render "myapp/file_list.html" (ctx_documents documents)).

(** Framework ([django.views.static.serve] over [MEDIA_ROOT]), reached
    through [static(settings.MEDIA_URL, ...)]: the file of that name,
    with the content type guessed from the name.  (Path normalisation
    and conditional [GET]s are left out.) *)
Definition serve (st : State) (path : string) : State * HttpResponse :=
  match media st !! path with
  | Some b => (st, FileResponse b (guess_type path))
  | None => (st, Http404)
  end.

(** [MEDIA_URL] in [settings.py] *)
Definition MEDIA_URL : string := "/media/".

(** [{{ document.document.url }}] in [file_list.html].  (The quoting
    of the name, undone when the URL is resolved, is left out.) *)
Definition url (d : Document) : string := MEDIA_URL +:+ document d.

(** ** URL configuration: [myapp/urls.py] and [myproject/urls.py] *)

(** One request as the server handles it; [path] is the path of its
    URL. *)
Record Event := {
  path : string;
  request : HttpRequest;
  env : Env
}.

(** The [urlpatterns], matched in order against the path without its
    leading slash: what starts with [admin/] goes to the admin site,
    then come [upload/], the empty path, and with [settings.DEBUG] the
    files below [MEDIA_URL].  The admin site has no model of this app
    registered: it answers in its own way, [admin_site] here, and the
    table, the sequence and the files are not among what it changes. *)
Definition urlpatterns (st : State) (ev : Event) (route : string)
  : State * HttpResponse :=
  match Text.strip_prefix "admin/" route with
  | Some rest => (st, admin_site rest)
  | None =>
      if String.eqb route "upload/"
      then upload_file (env ev) st (request ev)
      else if String.eqb route EmptyString then file_list st (request ev)
      else if DEBUG (env ev) then
        match Text.strip_prefix "media/" route with
        | Some p => serve st p
        | None => (st, Http404)
        end
      else (st, Http404)
  end.

Definition handle (st : State) (ev : Event) : State * HttpResponse :=
  match Text.strip_prefix "/" (path ev) with
  | Some route => urlpatterns st ev route
  | None => (st, Http404)
  end.

(** The state after a sequence of requests. *)
Definition run (st : State) (evs : list Event) : State :=
  foldl (λ st ev, (handle st ev).1) st evs.

End Views.

Arguments serve guess_type st path : assert.
Arguments urlpatterns {_} guess_type st ev route : assert.
Arguments handle {_} guess_type st ev : assert.
Arguments run {_} guess_type st evs : assert.

(** ** Orders on listings *)

(** [a] comes before [b] in a newest-first listing: later [uploaded_at],
    and for equal times the larger primary key. *)
Definition newer (a b : Document) : bool :=
  (uploaded_at b <? uploaded_at a) ||
  ((uploaded_at a =? uploaded_at b) && (pk b <? pk a)).

Fixpoint newest_first (l : list Document) : bool :=
  match l with
  | a :: r =>
      match r with
      | b :: _ => newer a b && newest_first r
      | [] => true
      end
  | [] => true
  end.

(** Primary keys grow strictly along the list. *)
Definition ascending_pk (l : list Document) : Prop :=
  StronglySorted (λ a b, pk a < pk b) l.

(** ** A storage backend for worked examples *)

Module ExampleStorage.

(** The ASCII part of [\w], with [-] and [.]. *)
Definition is_name_char (c : ascii) : bool :=
  let n := nat_of_ascii c in
  ((48 <=? n)%nat && (n <=? 57)%nat) || ((65 <=? n)%nat && (n <=? 90)%nat) ||
  ((97 <=? n)%nat && (n <=? 122)%nat) ||
  Ascii.eqb c "_" || Ascii.eqb c "-" || Ascii.eqb c ".".

Fixpoint replace_char (a b : ascii) (s : string) : string :=
  match s with
  | String c r =>
      String (if Ascii.eqb c a then b else c) (replace_char a b r)
  | EmptyString => EmptyString
  end.

(** [django.utils.text.get_valid_filename], keeping ASCII only. *)
Definition valid_name (n : string) : option string :=
  let s := replace_char " " "_" (Text.strip n) in
  let s := Text.filter is_name_char s in
  if String.eqb s EmptyString || String.eqb s "." || String.eqb s ".."
  then None else Some s.

Definition usable (files : gmap string bytes) (max_length : nat)
    (k : string) : bool :=
  bool_decide (files !! k = None) && (String.length k <=? max_length)%nat.

Fixpoint underscores (n : nat) : string :=
  match n with
  | O => EmptyString
  | S m => String "_" (underscores m)
  end.

(** The requested name when it is free and short enough; else the first
    usable one among the name followed by one, two, ... underscores (the
    default backend draws a random suffix there). *)
Definition available_name (files : gmap string bytes) (n : string)
    (max_length : nat) : option string :=
  find (usable files max_length)
       (map (λ i, n +:+ underscores i) (seq 0 (S (base.size files)))).

#[global] Instance storage : Storage.
Proof.
  refine {| get_valid_name := valid_name;
            get_available_name := available_name |}.
  intros files n max_length k Hk.
  apply find_some in Hk as [_ Hk].
  apply andb_prop in Hk as [Hk _].
  by apply bool_decide_eq_true in Hk.
Defined.

End ExampleStorage.

(** [mimetypes.guess_type] for the examples: PDF and plain text by
    extension, [application/octet-stream] otherwise. *)
Definition example_guess_type (p : string) : string :=
  if String.eqb (Text.after_last "." p) "pdf" then "application/pdf"
  else if String.eqb (Text.after_last "." p) "txt" then "text/plain"
  else "application/octet-stream".

(** ** How one request changes the state *)

(** [grows st st']: nothing changed, or one file was written under a
    name that was free, with or without a new last row that refers to
    it and takes the next primary key. *)
Inductive grows (st : State) : State → Prop :=
  | grows_same : grows st st
  | grows_file k b :
      media st !! k = None →
      grows st {| documents := documents st; next_id := next_id st;
                  media := <[k := b]> (media st) |}
  | grows_row k b d :
      media st !! k = None →
      pk d = next_id st →
      document d = k →
      grows st {| documents := documents st ++ [d];
                  next_id := next_id st + 1;
                  media := <[k := b]> (media st) |}.

(** The primary keys grow along the table and stay below the sequence;
    every row has a file, and no two rows share one. *)
Record consistent (st : State) : Prop := {
  consistent_ascending : ascending_pk (documents st);
  consistent_below : Forall (λ d, pk d < next_id st) (documents st);
  consistent_stored :
    Forall (λ d, is_Some (media st !! document d)) (documents st);
  consistent_distinct : NoDup (document <$> documents st)
}.

(** ** Requests of the worked examples *)

Definition five_bytes : bytes :=
  [Byte.x25; Byte.x50; Byte.x44; Byte.x46; Byte.x0a].

(** A [POST] of the upload form with one file part named [document]. *)
Definition upload_request (descr fname ctype : string) (b : bytes)
  : HttpRequest :=
  {| method := "POST";
     POST := {[ "description" := descr ]};
     multipart_files :=
       {[ "document" := {| filename := fname; part_content_type := ctype;
                           body := b |} ]} |}.

(** A [POST] of the upload form without a file part. *)
Definition no_file_request (descr : string) : HttpRequest :=
  {| method := "POST";
     POST := {[ "description" := descr ]};
     multipart_files := ∅ |}.

Definition get_request : HttpRequest :=
  {| method := "GET"; POST := ∅; multipart_files := ∅ |}.

Definition at_time (t : Z) : Env :=
  {| now := t; insert_ok := true; DEBUG := true |}.

Definition database_down (t : Z) : Env :=
  {| now := t; insert_ok := false; DEBUG := true |}.

Definition upload_event (e : Env) (r : HttpRequest) : Event :=
  {| path := "/upload/"; request := r; env := e |}.

(** Following the link that [file_list.html] shows for a row. *)
Definition download_event (e : Env) (d : Document) : Event :=
  {| path := url d; request := get_request; env := e |}.

(** ** What an upload can come to *)

(** The state and the response that [upload_file] can end with: the
    empty form for a method other than [POST]; the bound form when it
    does not validate; a refusal by the storage, before anything is
    written; the file without its row when the [INSERT] fails; the
    file and its row, and the redirect. *)
Inductive upload_outcome `{Storage} (env : Env) (st : State)
    (request : HttpRequest) : State → HttpResponse → Prop :=
  | outcome_not_post :
      String.eqb (method request) "POST" = false →
      upload_outcome env st request st
        (render "myapp/upload_file.html" (ctx_form DocumentForm_unbound))
  | outcome_invalid :
      method request = "POST" →
      is_valid (DocumentForm_bound request) = false →
      upload_outcome env st request st
        (render "myapp/upload_file.html"
           (ctx_form (DocumentForm_bound request)))
  | outcome_refused f :
      method request = "POST" →
      is_valid (DocumentForm_bound request) = true →
      clean_document (DocumentForm_bound request) = inr f →
      FieldFile_save (media st) f = inl SuspiciousFileOperation →
      upload_outcome env st request st (raised SuspiciousFileOperation)
  | outcome_insert_failed f k :
      method request = "POST" →
      is_valid (DocumentForm_bound request) = true →
      clean_document (DocumentForm_bound request) = inr f →
      media st !! k = None →
      insert_ok env = false →
      upload_outcome env st request
        {| documents := documents st; next_id := next_id st;
           media := <[k := content f]> (media st) |}
        (raised DatabaseError)
  | outcome_saved f k :
      method request = "POST" →
      is_valid (DocumentForm_bound request) = true →
      clean_document (DocumentForm_bound request) = inr f →
      media st !! k = None →
      insert_ok env = true →
      upload_outcome env st request
        {| documents := documents st ++
             [{| pk := next_id st;
                 description :=
                   description_value (DocumentForm_bound request);
                 document := k; uploaded_at := now env |}];
           next_id := next_id st + 1;
           media := <[k := content f]> (media st) |}
        (redirect "file_list").

(** ** Properties of rows, listings and histories *)

(** The bounds of [description = CharField(max_length=255, ...)]. *)
Definition description_fits (d : Document) : Prop :=
  (String.length (description d) ≤ description_max_length)%nat ∧
  Text.contains "000" (description d) = false.

(** [uploaded_at] never decreases along the list. *)
Definition ascending_time (l : list Document) : Prop :=
  StronglySorted (λ a b, uploaded_at a ≤ uploaded_at b) l.

(** The clock readings of a sequence of requests. *)
Definition clock (evs : list Event) : list Z :=
  (λ ev, now (env ev)) <$> evs.

(** The names of the files that the rows refer to. *)
Definition document_names (st : State) : gset string :=
  list_to_set (document <$> documents st).

(** A string of white space only. *)
Fixpoint blank (s : string) : bool :=
  match s with
  | String c r => Text.isspace c && blank r
  | EmptyString => true
  end.

(** A string of [n] letters, for descriptions and names of a given
    length. *)
Fixpoint letters (n : nat) : string :=
  match n with
  | O => EmptyString
  | S m => String "a" (letters m)
  end.

(** The character [c], [n] times. *)
Fixpoint copies (c : ascii) (n : nat) : string :=
  match n with
  | O => EmptyString
  | S m => String c (copies c m)
  end.

(** A [POST] of the upload form with a file part and no description. *)
Definition upload_without_description (fname ctype : string) (b : bytes)
  : HttpRequest :=
  {| method := "POST";
     POST := ∅;
     multipart_files :=
       {[ "document" := {| filename := fname; part_content_type := ctype;
                           body := b |} ]} |}.

(** A request for the listing. *)
Definition list_event (e : Env) : Event :=
  {| path := "/"; request := get_request; env := e |}.


(** The responses to a sequence of requests, in order. *)
Fixpoint responses `{Storage} (guess_type : string → string) (st : State)
    (evs : list Event) : list HttpResponse :=
  match evs with
  | ev :: evs =>
      (handle guess_type st ev).2 ::
      responses guess_type (handle guess_type st ev).1 evs
  | [] => []
  end.

(** [redirect('file_list')] *)
Definition is_redirect (r : HttpResponse) : bool :=
  match r with
  | redirect to => String.eqb to "file_list"
  | _ => false
  end.

(** * Properties *)

(** ** Text *)

Example backslash_code : nat_of_ascii backslash = 92%nat.
Proof. reflexivity. Qed.

Example sanitize_windows_path :
  sanitize_file_name ("C:" +:+ String backslash "docs" +:+
                      String backslash "a b.txt") = Some "a b.txt".
Proof. reflexivity. Qed.

Example sanitize_parent_directory : sanitize_file_name "docs/.." = None.
Proof. reflexivity. Qed.





Lemma sanitize_file_name_empty : sanitize_file_name EmptyString = None.
Proof. reflexivity. Qed.

(** ** The form *)

Lemma FILES_lookup request field :
  FILES request !! field = multipart_files request !! field ≫= parse_file_part.
Proof. unfold FILES. apply lookup_omap. Qed.

Lemma is_valid_errors form : is_valid form = true → errors form = [].
Proof.
  unfold is_valid. intros [_ He]%andb_prop.
  by destruct (errors form).
Qed.

Lemma is_valid_bound form : is_valid form = true → is_bound form = true.
Proof. unfold is_valid. by intros [? _]%andb_prop. Qed.

Lemma document_error_invalid form e :
  clean_document form = inl e → is_valid form = false.
Proof.
  intros He. unfold is_valid, errors, document_errors. rewrite He.
  destruct (is_bound form); [|done]. simpl.
  by destruct (map _ (description_errors form)).
Qed.

Lemma is_valid_clean_document form :
  is_valid form = true → ∃ f, clean_document form = inr f.
Proof.
  intros Hv. destruct (clean_document form) as [e|f] eqn:Hc; [|by eexists].
  apply document_error_invalid in Hc. congruence.
Qed.

Lemma clean_document_inr form f :
  clean_document form = inr f →
  files form !! "document" = Some f ∧
  (String.length (name f) ≤ document_max_length)%nat ∧
  name f ≠ EmptyString ∧ content f ≠ [].
Proof.
  unfold clean_document.
  destruct (files form !! "document") as [g|]; [|done].
  destruct (_ <? _)%nat eqn:Hlen; [done|].
  destruct (String.eqb (name g) EmptyString) eqn:Hname; [done|].
  destruct (size g =? 0)%nat eqn:Hsize; [done|].
  intros [= <-]. split_and!; [done| | |].
  - by apply Nat.ltb_ge in Hlen.
  - by apply String.eqb_neq in Hname.
  - apply Nat.eqb_neq in Hsize. unfold size in Hsize. by destruct (content g).
Qed.

(** ** One request *)

Section Properties.

Context `{Storage}.
Variable guess_type : string → string.

(** What a valid [POST] does, in full. *)
Lemma upload_file_valid env st request f valid k :
  method request = "POST" →
  is_valid (DocumentForm_bound request) = true →
  clean_document (DocumentForm_bound request) = inr f →
  get_valid_name (name f) = Some valid →
  get_available_name (media st) (upload_to +:+ valid) document_max_length
    = Some k →
  upload_file env st request =
    if insert_ok env then
      ({| documents := documents st ++
            [{| pk := next_id st;
                description := description_value (DocumentForm_bound request);
                document := k; uploaded_at := now env |}];
          next_id := next_id st + 1;
          media := <[k := content f]> (media st) |}, redirect "file_list")
    else
      ({| documents := documents st; next_id := next_id st;
          media := <[k := content f]> (media st) |}, raised DatabaseError).
Proof.
  intros Hm Hv Hf Hn Hk. unfold upload_file.
  rewrite Hm, String.eqb_refl, Hv. unfold form_save.
  rewrite (is_valid_errors _ Hv), Hf.
  unfold Document_save, FieldFile_save. rewrite Hn, Hk.
  by destruct (insert_ok env).
Qed.

Lemma upload_file_invalid env st request :
  method request = "POST" →
  is_valid (DocumentForm_bound request) = false →
  upload_file env st request =
    (st, render "myapp/upload_file.html"
           (ctx_form (DocumentForm_bound request))).
Proof.
  intros Hm Hv. unfold upload_file. by rewrite Hm, String.eqb_refl, Hv.
Qed.

Lemma Document_save_grows env st descr f :
  grows st (Document_save env st descr f).1.
Proof.
  unfold Document_save, FieldFile_save.
  destruct (get_valid_name (name f)) as [valid|]; [|constructor].
  destruct (get_available_name _ _ _) as [k|] eqn:Hk; [|constructor].
  apply get_available_name_free in Hk.
  destruct (insert_ok env); simpl.
  - by apply grows_row.
  - by apply grows_file.
Qed.

Lemma upload_file_grows env st request :
  grows st (upload_file env st request).1.
Proof.
  unfold upload_file.
  destruct (String.eqb _ _); [|constructor].
  destruct (is_valid _); [|constructor].
  unfold form_save.
  destruct (errors _); [|constructor].
  destruct (clean_document _) as [e|f]; [constructor|].
  pose proof (Document_save_grows env st
    (description_value (DocumentForm_bound request)) f) as Hg.
  by destruct (Document_save _ _ _ _) as [st' [e|d]].
Qed.

Lemma serve_state st p : (serve guess_type st p).1 = st.
Proof. unfold serve. by destruct (media st !! p). Qed.

Lemma handle_grows st ev : grows st (handle guess_type st ev).1.
Proof.
  unfold handle.
  destruct (Text.strip_prefix "/" _) as [route|]; [|constructor].
  unfold urlpatterns.
  destruct (Text.strip_prefix "admin/" route); [constructor|].
  destruct (String.eqb route "upload/"); [apply upload_file_grows|].
  destruct (String.eqb route EmptyString); [constructor|].
  destruct (DEBUG _); [|constructor].
  destruct (Text.strip_prefix _ _); [|constructor].
  rewrite serve_state. constructor.
Qed.

(** The link of a row leads to [serve] on the row's file. *)
Lemma handle_download st e d :
  DEBUG e = true →
  handle guess_type st (download_event e d) =
  serve guess_type st (document d).
Proof.
  intros Hdebug. unfold handle, urlpatterns. simpl. by rewrite Hdebug.
Qed.

(** [/upload/] is the route of [upload_file]. *)
Lemma handle_upload_event st e r :
  handle guess_type st (upload_event e r) = upload_file e st r.
Proof. reflexivity. Qed.

(** Without [DEBUG] there is no media route, and the link leads
    nowhere. *)
Lemma handle_download_off st e d :
  DEBUG e = false →
  handle guess_type st (download_event e d) = (st, Http404).
Proof.
  intros Hdebug. unfold handle, urlpatterns. simpl. by rewrite Hdebug.
Qed.

(** ** Sequences of requests *)

Lemma run_cons st ev evs :
  run guess_type st (ev :: evs) =
  run guess_type (handle guess_type st ev).1 evs.
Proof. reflexivity. Qed.

Lemma run_snoc st evs ev :
  run guess_type st (evs ++ [ev]) =
  (handle guess_type (run guess_type st evs) ev).1.
Proof. unfold run. by rewrite foldl_snoc. Qed.

(** A property kept by every single change is kept by every run. *)
Lemma run_ind (P : State → Prop) :
  (∀ st st', P st → grows st st' → P st') →
  ∀ st evs, P st → P (run guess_type st evs).
Proof.
  intros Hstep st evs. revert st.
  induction evs as [|ev evs IH]; intros st HP; [done|].
  rewrite run_cons. apply IH. eapply Hstep; [done|apply handle_grows].
Qed.

Lemma grows_prefix st st' :
  grows st st' → documents st `prefix_of` documents st'.
Proof. destruct 1; simpl; [done|done|by apply prefix_app_r]. Qed.

Lemma grows_media st st' : grows st st' → media st ⊆ media st'.
Proof. destruct 1; simpl; [done|by apply insert_subseteq..]. Qed.

Lemma run_prefix st evs :
  documents st `prefix_of` documents (run guess_type st evs).
Proof.
  apply (run_ind (λ s, documents st `prefix_of` documents s)); [|done].
  intros s s' Hs Hg. etrans; [done|by apply grows_prefix].
Qed.

Lemma run_media st evs : media st ⊆ media (run guess_type st evs).
Proof.
  apply (run_ind (λ s, media st ⊆ media s)); [|done].
  intros s s' Hs Hg. etrans; [done|by apply grows_media].
Qed.

Lemma ascending_pk_snoc l d :
  ascending_pk l → Forall (λ a, pk a < pk d) l → ascending_pk (l ++ [d]).
Proof.
  unfold ascending_pk. induction 1 as [|a l Hl IH Ha]; intros Hd; simpl.
  - repeat constructor.
  - apply Forall_cons in Hd as [Had Hd]. constructor; [by apply IH|].
    apply Forall_app. split; [done|by constructor].
Qed.

Lemma grows_consistent st st' : consistent st → grows st st' → consistent st'.
Proof.
  intros [Hasc Hlt Hsto Hdis] Hg.
  destruct Hg as [|k b Hk|k b d Hk Hpk Hdoc].
  - done.
  - split; simpl; [done|done| |done].
    eapply Forall_impl; [exact Hsto|]. intros d [c Hc]. exists c.
    rewrite lookup_insert_ne; [done|]. intros ->. congruence.
  - split; simpl.
    + apply ascending_pk_snoc; [done|]. by rewrite Hpk.
    + apply Forall_app. split.
      * eapply Forall_impl; [exact Hlt|]. intros; simpl in *; lia.
      * constructor; [lia|constructor].
    + apply Forall_app. split.
      * eapply Forall_impl; [exact Hsto|]. intros a [c Hc]. exists c.
        rewrite lookup_insert_ne; [done|]. intros ->. congruence.
      * constructor; [|constructor]. simpl.
        rewrite Hdoc, lookup_insert_eq. by eexists.
    + rewrite fmap_app. apply NoDup_app. split_and!; [done| |apply NoDup_singleton].
      intros x (a & -> & Ha)%list_elem_of_fmap [Hx|[]%elem_of_nil]%elem_of_cons.
      rewrite Forall_forall in Hsto. destruct (Hsto a Ha) as [c Hc].
      congruence.
Qed.

Lemma init_consistent : consistent init.
Proof. split; simpl; constructor. Qed.

Lemma run_consistent st evs :
  consistent st → consistent (run guess_type st evs).
Proof. apply run_ind. apply grows_consistent. Qed.

Lemma ascending_pk_NoDup l : ascending_pk l → NoDup (pk <$> l).
Proof.
  unfold ascending_pk. induction 1 as [|a l Hl IH Ha]; simpl; constructor.
  - intros (b & Hb & Hin)%list_elem_of_fmap.
    rewrite Forall_forall in Ha. specialize (Ha b Hin). lia.
  - done.
Qed.

(** Sequential uploads never share a stored name, whatever the names
    the clients sent. *)
Lemma storage_names_distinct evs :
  NoDup (document <$> documents (run guess_type init evs)).
Proof. apply (run_consistent init evs init_consistent). Qed.

(** A path without a file is answered with [Http404]. *)
Lemma serve_missing st p :
  media st !! p = None → serve guess_type st p = (st, Http404).
Proof. unfold serve. by intros ->. Qed.

End Properties.

(** Two uploads of [a.pdf] end up under two names. *)
Example same_name_twice :
  document <$> documents (run example_guess_type init
    [upload_event (at_time 10)
       (upload_request "one" "a.pdf" "application/pdf" five_bytes);
     upload_event (at_time 20)
       (upload_request "two" "a.pdf" "application/pdf" five_bytes)])
  = ["documents/a.pdf"; "documents/a.pdf_"].
Proof. vm_compute. reflexivity. Qed.

(** ** New rows *)

Lemma Document_save_rows `{Storage} env st descr f :
  documents (Document_save env st descr f).1 = documents st ∨
  ∃ d : Document, documents (Document_save env st descr f).1 = documents st ++ [d] ∧
       pk d = next_id st ∧ uploaded_at d = now env.
Proof.
  unfold Document_save.
  destruct (FieldFile_save _ _) as [e|[files' k]]; [by left|].
  destruct (insert_ok env); [right|by left].
  by eexists.
Qed.

Lemma upload_file_rows `{Storage} env st request :
  documents (upload_file env st request).1 = documents st ∨
  ∃ d : Document, documents (upload_file env st request).1 = documents st ++ [d] ∧
       pk d = next_id st ∧ uploaded_at d = now env.
Proof.
  unfold upload_file.
  destruct (String.eqb _ _); [|by left].
  destruct (is_valid _); [|by left].
  unfold form_save.
  destruct (errors _); [|by left].
  destruct (clean_document _) as [e|f]; [by left|].
  pose proof (Document_save_rows env st
    (description_value (DocumentForm_bound request)) f) as Hr.
  by destruct (Document_save _ _ _ _) as [st' [e|d]].
Qed.

Lemma handle_rows `{Storage} guess_type st ev :
  documents (handle guess_type st ev).1 = documents st ∨
  ∃ d : Document, documents (handle guess_type st ev).1 = documents st ++ [d] ∧
       pk d = next_id st ∧ uploaded_at d = now (env ev).
Proof.
  unfold handle.
  destruct (Text.strip_prefix "/" _) as [route|]; [|by left].
  unfold urlpatterns.
  destruct (Text.strip_prefix "admin/" route); [by left|].
  destruct (String.eqb route "upload/"); [apply upload_file_rows|].
  destruct (String.eqb route EmptyString); [by left|].
  destruct (DEBUG _); [|by left].
  destruct (Text.strip_prefix _ _); [|by left].
  rewrite serve_state. by left.
Qed.

(** ** File parts and the form *)


Lemma bound_files_parsed request part n :
  multipart_files request !! "document" = Some part →
  sanitize_file_name (filename part) = Some n →
  files (DocumentForm_bound request) !! "document" =
    Some {| name := n; content_type := part_content_type part;
            content := body part |}.
Proof.
  intros Hp Hn. simpl. rewrite FILES_lookup, Hp. simpl.
  unfold parse_file_part. by rewrite Hn.
Qed.

Lemma bound_files_missing request :
  multipart_files request !! "document" = None →
  files (DocumentForm_bound request) !! "document" = None.
Proof. intros Hp. simpl. by rewrite FILES_lookup, Hp. Qed.

Lemma sanitize_file_name_nonempty fn n :
  sanitize_file_name fn = Some n → String.eqb n EmptyString = false.
Proof.
  unfold sanitize_file_name.
  destruct (String.eqb _ EmptyString) eqn:He; [done|].
  destruct (_ || _); [done|]. by intros [= <-].
Qed.

Lemma no_document_required form :
  files form !! "document" = None → clean_document form = inl E_required.
Proof. unfold clean_document. by intros ->. Qed.


(** A non-empty file with a short name and a clean description makes
    the bound form valid. *)
Lemma bound_form_valid request part n :
  multipart_files request !! "document" = Some part →
  sanitize_file_name (filename part) = Some n →
  (String.length n ≤ document_max_length)%nat →
  body part ≠ [] →
  description_errors (DocumentForm_bound request) = [] →
  is_valid (DocumentForm_bound request) = true ∧
  clean_document (DocumentForm_bound request) =
    inr {| name := n; content_type := part_content_type part;
           content := body part |}.
Proof.
  intros Hp Hn Hlen Hbody Hdescr.
  assert (clean_document (DocumentForm_bound request) =
    inr {| name := n; content_type := part_content_type part;
           content := body part |}) as Hc.
  { unfold clean_document. rewrite (bound_files_parsed _ _ _ Hp Hn). simpl.
    apply Nat.ltb_ge in Hlen. rewrite Hlen.
    rewrite (sanitize_file_name_nonempty _ _ Hn).
    unfold size. simpl. by destruct (body part). }
  split; [|done].
  unfold is_valid, errors, document_errors. simpl.
  by rewrite Hdescr, Hc.
Qed.

(** * The claims *)

(** ** C1: uploading, then fetching the file *)

(** C1, as amended.  For every [POST] of a non-empty file whose name
    the parser, the form and the storage accept, with a clean
    description and a database that takes the row, [upload_file]
    redirects to [file_list] and appends one row under the next primary
    key.  At once and after any later requests, the storage holds
    under that row's file name exactly the bytes that were sent, and
    [serve] returns them; a request for the row's link returns them
    when [DEBUG] is on, and is answered with [Http404] when it is off,
    the media route being there only with [DEBUG].  The content type of
    the response is the one guessed from the stored name: the content
    type sent with the upload is not kept. *)
Theorem upload_then_serve `{Storage} guess_type env st request part n valid k :
  method request = "POST" →
  multipart_files request !! "document" = Some part →
  sanitize_file_name (filename part) = Some n →
  (String.length n ≤ document_max_length)%nat →
  body part ≠ [] →
  description_errors (DocumentForm_bound request) = [] →
  get_valid_name n = Some valid →
  get_available_name (media st) (upload_to +:+ valid) document_max_length
    = Some k →
  insert_ok env = true →
  ∃ (d : Document) (st' : State),
    upload_file env st request = (st', redirect "file_list") ∧
    documents st' = documents st ++ [d] ∧
    pk d = next_id st ∧
    ∀ evs,
      let later := run guess_type st' evs in
      media later !! document d = Some (body part) ∧
      serve guess_type later (document d) =
        (later, FileResponse (body part) (guess_type (document d))) ∧
      ∀ e,
        handle guess_type later (download_event e d) =
          if DEBUG e
          then (later, FileResponse (body part) (guess_type (document d)))
          else (later, Http404).
Proof.
  intros Hm Hp Hn Hlen Hbody Hdescr Hvalid Hk Hok.
  destruct (bound_form_valid _ _ _ Hp Hn Hlen Hbody Hdescr) as [Hv Hc].
  rewrite (upload_file_valid env st request _ valid k Hm Hv Hc Hvalid Hk), Hok.
  eexists _, _. split_and!; [done..|].
  intros evs later. cbn [document].
  assert (media later !! k = Some (body part)) as Hlater.
  { eapply lookup_weaken; [|apply run_media].
    simpl. apply lookup_insert_eq. }
  assert (serve guess_type later k =
          (later, FileResponse (body part) (guess_type k))) as Hserve.
  { unfold serve. by rewrite Hlater. }
  split_and!; [done..|].
  intros e. destruct (DEBUG e) eqn:Hdebug.
  - by rewrite handle_download.
  - by apply handle_download_off.
Qed.

Lemma upload_then_serve_witness :
  ∃ (d : Document) (st' : State),
    upload_file (at_time 10) init
      (upload_request "invoice" "a.pdf" "application/pdf" five_bytes)
      = (st', redirect "file_list") ∧
    documents st' = documents init ++ [d] ∧
    pk d = next_id init ∧
    ∀ evs,
      let later := run example_guess_type st' evs in
      media later !! document d = Some five_bytes ∧
      serve example_guess_type later (document d) =
        (later,
         FileResponse five_bytes (example_guess_type (document d))) ∧
      ∀ e,
        handle example_guess_type later (download_event e d) =
          if DEBUG e
          then (later,
                FileResponse five_bytes (example_guess_type (document d)))
          else (later, Http404).
Proof.
  apply (upload_then_serve example_guess_type (at_time 10) init
           (upload_request "invoice" "a.pdf" "application/pdf" five_bytes)
           {| filename := "a.pdf"; part_content_type := "application/pdf";
              body := five_bytes |}
           "a.pdf" "a.pdf" "documents/a.pdf").
  - reflexivity.
  - vm_compute. reflexivity.
  - vm_compute. reflexivity.
  - vm_compute. lia.
  - discriminate.
  - vm_compute. reflexivity.
  - vm_compute. reflexivity.
  - vm_compute. reflexivity.
  - reflexivity.
Defined.

(** C1 fails as stated: two uploads that differ in nothing but the
    content type sent leave one and the same state, so nothing that is
    read back from that state can return the content type of both. *)
Lemma upload_drops_content_type :
  let st1 := (upload_file (at_time 10) init
    (upload_request "invoice" "a.pdf" "application/pdf" five_bytes)).1 in
  let st2 := (upload_file (at_time 10) init
    (upload_request "invoice" "a.pdf" "text/plain" five_bytes)).1 in
  documents st1 =
    [{| pk := 1; description := "invoice"; document := "documents/a.pdf";
        uploaded_at := 10 |}] ∧
  st1 = st2 ∧
  ¬ ∃ resolve : State → Z → option (bytes * string),
      resolve st1 1 = Some (five_bytes, "application/pdf") ∧
      resolve st2 1 = Some (five_bytes, "text/plain").
Proof.
  assert ((upload_file (at_time 10) init
      (upload_request "invoice" "a.pdf" "application/pdf" five_bytes)).1 =
    (upload_file (at_time 10) init
      (upload_request "invoice" "a.pdf" "text/plain" five_bytes)).1) as Heq.
  { vm_compute. reflexivity. }
  simpl. split_and!.
  - vm_compute. reflexivity.
  - exact Heq.
  - intros (resolve & H1 & H2). rewrite Heq in H1. congruence.
Qed.

(** ** C2: the order of the listing *)

(** C2, as amended.  In every state that requests lead to, [file_list]
    hands the template all rows of the table, each once, in the order
    of insertion, which is the ascending order of the primary key; it
    does not sort by [uploaded_at]. *)
Theorem file_list_in_insertion_order `{Storage} guess_type evs request :
  let st := run guess_type init evs in
  file_list st request =
    (st, render "myapp/file_list.html" (ctx_documents (documents st))) ∧
  ascending_pk (documents st) ∧
  NoDup (documents st).
Proof.
  intros st. split_and!; [done| |].
  - apply (run_consistent guess_type init evs init_consistent).
  - eapply NoDup_fmap_1.
    apply (ascending_pk_NoDup),
      (run_consistent guess_type init evs init_consistent).
Qed.

(** C2 fails as stated: after an upload at time 10 and one at time 20
    the listing shows the older one first. *)
Lemma file_list_oldest_first :
  let st := run example_guess_type init
    [upload_event (at_time 10)
       (upload_request "first" "a.pdf" "application/pdf" five_bytes);
     upload_event (at_time 20)
       (upload_request "second" "b.txt" "text/plain" five_bytes)] in
  ∃ l,
    file_list st get_request =
      (st, render "myapp/file_list.html" (ctx_documents l)) ∧
    (λ d, (pk d, uploaded_at d)) <$> l = [(1, 10); (2, 20)] ∧
    newest_first l = false.
Proof.
  eexists. split_and!; [reflexivity| |]; vm_compute; reflexivity.
Qed.

(** ** C3: rows and their files *)

(** C3, as amended.  In every state that requests lead to, every row's
    [document] names a file that exists in the storage.  When the
    [INSERT] fails after the file was written, the exception reaches
    the caller, no row is added, and the file that was written stays
    in the storage under its name. *)
Theorem rows_have_files `{Storage} guess_type evs :
  let st := run guess_type init evs in
  Forall (λ d, is_Some (media st !! document d)) (documents st) ∧
  ∀ env request f valid k,
    method request = "POST" →
    is_valid (DocumentForm_bound request) = true →
    clean_document (DocumentForm_bound request) = inr f →
    get_valid_name (name f) = Some valid →
    get_available_name (media st) (upload_to +:+ valid) document_max_length
      = Some k →
    insert_ok env = false →
    upload_file env st request =
      ({| documents := documents st; next_id := next_id st;
          media := <[k := content f]> (media st) |}, raised DatabaseError).
Proof.
  intros st. split.
  - apply (run_consistent guess_type init evs init_consistent).
  - intros env request f valid k Hm Hv Hc Hvalid Hk Hok.
    by rewrite (upload_file_valid env st request f valid k), Hok.
Qed.

Lemma rows_have_files_witness :
  upload_file (database_down 10) init
    (upload_request "invoice" "a.pdf" "application/pdf" five_bytes) =
    ({| documents := []; next_id := 1;
        media := <[ "documents/a.pdf" := five_bytes ]> ∅ |},
     raised DatabaseError).
Proof.
  apply (proj2 (rows_have_files example_guess_type [])
           (database_down 10)
           (upload_request "invoice" "a.pdf" "application/pdf" five_bytes)
           {| name := "a.pdf"; content_type := "application/pdf";
              content := five_bytes |}
           "a.pdf" "documents/a.pdf").
  - reflexivity.
  - vm_compute. reflexivity.
  - vm_compute. reflexivity.
  - vm_compute. reflexivity.
  - vm_compute. reflexivity.
  - reflexivity.
Defined.

(** C3 fails as stated: when the [INSERT] fails, the file written just
    before is still in the storage afterwards, with no row for it. *)
Lemma failed_insert_leaves_file :
  let r := upload_file (database_down 10) init
    (upload_request "invoice" "a.pdf" "application/pdf" five_bytes) in
  r.2 = raised DatabaseError ∧
  documents r.1 = [] ∧
  media r.1 !! "documents/a.pdf" = Some five_bytes.
Proof. split_and!; vm_compute; reflexivity. Qed.

(** ** C4: file names *)




(** ** C5: empty files *)



(** ** C6: primary keys *)

(** C6.  In every state that requests lead to, the primary keys of the
    rows are pairwise distinct and grow strictly in the order in which
    the rows were inserted: the table keeps that order, since later
    requests only append to it, and every key is below the next value
    of the sequence.  Every insert takes its key from the sequence: a
    valid upload that the storage and the database accept, coming
    after any sequence of requests, appends one row whose key is the
    next value of the sequence, larger than every key in the table and
    equal to none of them, and moves the sequence one up. *)
Theorem primary_keys_distinct_increasing `{Storage} guess_type evs
    env request part n valid k :
  let st := run guess_type init evs in
  let st' := run guess_type init (evs ++ [upload_event env request]) in
  (ascending_pk (documents st) ∧
   NoDup (pk <$> documents st) ∧
   Forall (λ d, pk d < next_id st) (documents st) ∧
   ∀ more, documents st `prefix_of` documents (run guess_type st more)) ∧
  (method request = "POST" →
   multipart_files request !! "document" = Some part →
   sanitize_file_name (filename part) = Some n →
   (String.length n ≤ document_max_length)%nat →
   body part ≠ [] →
   description_errors (DocumentForm_bound request) = [] →
   get_valid_name n = Some valid →
   get_available_name (media st) (upload_to +:+ valid) document_max_length
     = Some k →
   insert_ok env = true →
   ∃ d : Document,
     documents st' = documents st ++ [d] ∧
     pk d = next_id st ∧
     next_id st' = next_id st + 1 ∧
     Forall (λ a, pk a < pk d) (documents st) ∧
     (pk d ∉ pk <$> documents st) ∧
     ascending_pk (documents st') ∧
     NoDup (pk <$> documents st')).
Proof.
  intros st st'.
  pose proof (run_consistent guess_type init evs init_consistent) as Hc.
  split.
  { split_and!.
    - apply Hc.
    - apply ascending_pk_NoDup, Hc.
    - apply Hc.
    - intros more. apply run_prefix. }
  intros Hm Hp Hn Hlen Hbody Hdescr Hvalid Hk Hok.
  destruct (bound_form_valid _ _ _ Hp Hn Hlen Hbody Hdescr) as [Hv Hf].
  pose proof (run_consistent guess_type init (evs ++ [upload_event env request])
                init_consistent) as Hc'.
  fold st' in Hc'.
  assert (st' =
    {| documents := documents st ++
         [{| pk := next_id st;
             description := description_value (DocumentForm_bound request);
             document := k; uploaded_at := now env |}];
       next_id := next_id st + 1;
       media := <[k := body part]> (media st) |}) as Hst'.
  { unfold st'. rewrite run_snoc, handle_upload_event. fold st.
    by rewrite (upload_file_valid env st request _ valid k Hm Hv Hf Hvalid Hk),
      Hok. }
  eexists. rewrite Hst' in *. simpl in *. split_and!; try done.
  - apply Hc.
  - intros (a & Ha & Hin)%list_elem_of_fmap.
    pose proof (consistent_below _ Hc) as Hlt.
    rewrite Forall_forall in Hlt. specialize (Hlt a Hin).
    simpl in Ha, Hlt. fold st in Hlt. lia.
  - apply Hc'.
  - apply ascending_pk_NoDup, Hc'.
Qed.

Lemma primary_keys_distinct_increasing_witness :
  let first := upload_event (at_time 10)
    (upload_request "one" "a.pdf" "application/pdf" five_bytes) in
  let second :=
    upload_request "two" "a.pdf" "application/pdf" five_bytes in
  let st := run example_guess_type init [first] in
  let st' := run example_guess_type init
               ([first] ++ [upload_event (at_time 20) second]) in
  pk <$> documents st = [1] ∧
  pk <$> documents st' = [1; 2] ∧
  ∃ d : Document,
    documents st' = documents st ++ [d] ∧
    pk d = next_id st ∧
    next_id st' = next_id st + 1 ∧
    Forall (λ a, pk a < pk d) (documents st) ∧
    (pk d ∉ pk <$> documents st) ∧
    ascending_pk (documents st') ∧
    NoDup (pk <$> documents st').
Proof.
  intros first second st st'.
  destruct (proj2 (primary_keys_distinct_increasing example_guess_type
              [first] (at_time 20) second
              {| filename := "a.pdf"; part_content_type := "application/pdf";
                 body := five_bytes |}
              "a.pdf" "a.pdf" "documents/a.pdf_"))
    as (d & Hrows & Hpk & Hnext & Hlt & Hnew & Hasc & Hnodup).
  - reflexivity.
  - vm_compute. reflexivity.
  - vm_compute. reflexivity.
  - vm_compute. lia.
  - discriminate.
  - vm_compute. reflexivity.
  - vm_compute. reflexivity.
  - vm_compute. reflexivity.
  - reflexivity.
  - fold st st' in Hrows, Hpk, Hnext, Hlt, Hnew, Hasc, Hnodup.
    assert (pk <$> documents st = [1]) as Hone by (vm_compute; reflexivity).
    split; [exact Hone|]. split.
    + rewrite Hrows, fmap_app, Hone, fmap_cons, fmap_nil, Hpk.
      assert (next_id st = 2) as -> by (vm_compute; reflexivity).
      reflexivity.
    + exists d. repeat split; assumption.
Defined.

(** ** C8: the upload time *)

(** C8.  A row found in the table after a request either was there
    before the request, unchanged, or was created by it with
    [uploaded_at] read from the clock of that request; and whatever
    requests follow, the row stays in its place as it is, [uploaded_at]
    included. *)
Theorem uploaded_at_set_once `{Storage} guess_type st ev evs i d :
  let st1 := (handle guess_type st ev).1 in
  documents st1 !! i = Some d →
  (documents st !! i = Some d ∨
   documents st !! i = None ∧ uploaded_at d = now (env ev)) ∧
  documents (run guess_type st1 evs) !! i = Some d ∧
  ∀ d', documents (run guess_type st1 evs) !! i = Some d' →
        uploaded_at d' = uploaded_at d.
Proof.
  intros st1 Hd.
  assert (documents (run guess_type st1 evs) !! i = Some d) as Hlater.
  { eapply prefix_lookup_Some; [done|apply run_prefix]. }
  split_and!; [|done|].
  - destruct (handle_rows guess_type st ev) as [Heq|(d0 & Heq & _ & Ht)];
      fold st1 in Heq; rewrite Heq in Hd; [by left|].
    apply lookup_app_Some in Hd as [Hd|[Hlen Hd]]; [by left|right].
    split; [by apply lookup_ge_None|].
    apply list_lookup_singleton_Some in Hd as [_ <-]. done.
  - intros d' Hd'. congruence.
Qed.

Lemma uploaded_at_set_once_witness :
  let ev := upload_event (at_time 10)
              (upload_request "invoice" "a.pdf" "application/pdf" five_bytes) in
  let later := [upload_event (at_time 20)
                  (upload_request "again" "a.pdf" "application/pdf"
                     five_bytes)] in
  let d := {| pk := 1; description := "invoice";
              document := "documents/a.pdf"; uploaded_at := 10 |} in
  let st1 := (handle example_guess_type init ev).1 in
  (documents init !! 0%nat = Some d ∨
   documents init !! 0%nat = None ∧ uploaded_at d = now (env ev)) ∧
  documents (run example_guess_type st1 later) !! 0%nat = Some d ∧
  ∀ d', documents (run example_guess_type st1 later) !! 0%nat = Some d' →
        uploaded_at d' = uploaded_at d.
Proof.
  intros ev later d st1.
  apply (uploaded_at_set_once example_guess_type init ev later 0%nat d).
  vm_compute. reflexivity.
Defined.

(** ** C10: invalid forms *)

(** C10.  A [POST] whose form does not validate, as when no file part
    was sent, saves nothing: [upload_file] returns the state it was
    given, with no row and no file added, and answers with the upload
    form page, bound to the submitted data, not with a redirect. *)
Theorem invalid_form_saves_nothing `{Storage} env st request :
  method request = "POST" →
  let form := DocumentForm_bound request in
  (multipart_files request !! "document" = None → is_valid form = false) ∧
  (is_valid form = false →
   upload_file env st request =
     (st, render "myapp/upload_file.html" (ctx_form form)) ∧
   (upload_file env st request).2 ≠ redirect "file_list").
Proof.
  intros Hm form. split.
  - intros Hp. eapply document_error_invalid.
    by apply no_document_required, bound_files_missing.
  - intros Hv. rewrite (upload_file_invalid env st request Hm Hv). done.
Qed.

Lemma invalid_form_saves_nothing_witness :
  let request := no_file_request "invoice" in
  upload_file (at_time 10) init request =
    (init, render "myapp/upload_file.html"
             (ctx_form (DocumentForm_bound request))) ∧
  (upload_file (at_time 10) init request).2 ≠ redirect "file_list".
Proof.
  intros request.
  destruct (invalid_form_saves_nothing (at_time 10) init request) as [Hno Hinv].
  - reflexivity.
  - apply Hinv, Hno. vm_compute. reflexivity.
Defined.

(** * Further properties of the views *)

(** ** What an upload comes to *)

Lemma FieldFile_save_inr `{Storage} files f files' k :
  FieldFile_save files f = inr (files', k) →
  files !! k = None ∧ files' = <[k := content f]> files.
Proof.
  unfold FieldFile_save.
  destruct (get_valid_name (name f)) as [valid|]; [|done].
  destruct (get_available_name _ _ _) as [k'|] eqn:Hk; [|done].
  intros [= <- <-]. split; [|done].
  by eapply get_available_name_free.
Qed.

Lemma FieldFile_save_inl `{Storage} files f e :
  FieldFile_save files f = inl e → e = SuspiciousFileOperation.
Proof.
  unfold FieldFile_save.
  destruct (get_valid_name (name f)) as [valid|]; [|congruence].
  destruct (get_available_name _ _ _); [done|congruence].
Qed.

(** [upload_file] always ends in one of the five outcomes. *)
Lemma upload_file_outcome `{Storage} env st request :
  upload_outcome env st request
    (upload_file env st request).1 (upload_file env st request).2.
Proof.
  unfold upload_file.
  destruct (String.eqb (method request) "POST") eqn:Hm; [|by constructor].
  apply String.eqb_eq in Hm.
  destruct (is_valid _) eqn:Hv; [|by constructor].
  unfold form_save. rewrite (is_valid_errors _ Hv).
  destruct (is_valid_clean_document _ Hv) as [f Hf]. rewrite Hf.
  unfold Document_save.
  destruct (FieldFile_save (media st) f) as [e|[files' k]] eqn:Hs.
  - pose proof (FieldFile_save_inl _ _ _ Hs) as ->. simpl.
    by eapply outcome_refused.
  - apply FieldFile_save_inr in Hs as [Hk ->].
    destruct (insert_ok env) eqn:Hok; simpl.
    + by apply outcome_saved.
    + by apply outcome_insert_failed.
Qed.

(** X1.  [upload_file] answers with the redirect to [file_list] exactly
    when it has saved the upload: then one row was appended, under the
    next primary key, with the description as cleaned by the form and
    the clock of the request, and its file is in the storage.  With any
    other answer the table and the sequence are as before. *)
Theorem redirect_means_saved `{Storage} env st request :
  let r := upload_file env st request in
  (r.2 = redirect "file_list" →
   ∃ d : Document,
     documents r.1 = documents st ++ [d] ∧
     next_id r.1 = next_id st + 1 ∧
     pk d = next_id st ∧
     description d = description_value (DocumentForm_bound request) ∧
     uploaded_at d = now env ∧
     media st !! document d = None ∧
     is_Some (media r.1 !! document d)) ∧
  (r.2 ≠ redirect "file_list" →
   documents r.1 = documents st ∧ next_id r.1 = next_id st).
Proof.
  intros r. unfold r.
  destruct (upload_file_outcome env st request); split; try done.
  intros _. eexists. split_and!; try done.
  simpl. rewrite lookup_insert_eq. by eexists.
Qed.

Lemma redirect_means_saved_witness :
  let r := upload_file (at_time 10) init
             (upload_request " invoice " "a.pdf" "application/pdf"
                five_bytes) in
  ∃ d : Document,
    documents r.1 = documents init ++ [d] ∧
    next_id r.1 = next_id init + 1 ∧
    pk d = next_id init ∧
    description d =
      description_value
        (DocumentForm_bound
           (upload_request " invoice " "a.pdf" "application/pdf"
              five_bytes)) ∧
    uploaded_at d = now (at_time 10) ∧
    media init !! document d = None ∧
    is_Some (media r.1 !! document d).
Proof.
  intros r.
  apply (proj1 (redirect_means_saved (at_time 10) init
                  (upload_request " invoice " "a.pdf" "application/pdf"
                     five_bytes))).
  vm_compute. reflexivity.
Defined.

(** X2.  [upload_file] changes the state only for a [POST] whose form
    validates, and then by writing one file under a name that was
    free; for any other method, and for an invalid form, the state it
    returns is the state it was given. *)
Theorem state_changes_only_on_valid_post `{Storage} env st request :
  (upload_file env st request).1 ≠ st →
  method request = "POST" ∧
  is_valid (DocumentForm_bound request) = true ∧
  ∃ k b, media st !! k = None ∧
         media (upload_file env st request).1 = <[k := b]> (media st).
Proof.
  destruct (upload_file_outcome env st request); intros Hne;
    try done; split_and!; try done; by eexists _, _.
Qed.

Lemma state_changes_only_on_valid_post_witness :
  let request := upload_request "invoice" "a.pdf" "application/pdf"
                   five_bytes in
  method request = "POST" ∧
  is_valid (DocumentForm_bound request) = true ∧
  ∃ k b, media init !! k = None ∧
         media (upload_file (database_down 10) init request).1 =
           <[k := b]> (media init).
Proof.
  intros request.
  apply (state_changes_only_on_valid_post (database_down 10) init request).
  vm_compute. discriminate.
Defined.

(** X3.  When [upload_file] ends with an exception, no row was added
    and the sequence did not move, and the exception is not the
    [ValueError] of saving an invalid form: [form.save()] is reached
    only after [form.is_valid()].  When the exception is the storage's
    refusal of the name, the state is unchanged; when it is the
    failure of the [INSERT], nothing changed but one file, written
    under a name that was free. *)
Theorem exception_adds_no_row `{Storage} env st request e :
  let r := upload_file env st request in
  r.2 = raised e →
  documents r.1 = documents st ∧
  next_id r.1 = next_id st ∧
  e ≠ ValueError ∧
  (e = SuspiciousFileOperation → r.1 = st) ∧
  (e = DatabaseError →
   insert_ok env = false ∧
   ∃ k b, media st !! k = None ∧ media r.1 = <[k := b]> (media st)).
Proof.
  intros r. unfold r.
  destruct (upload_file_outcome env st request); intros [= <-];
    split_and!; try done.
  intros _. split; [done|]. by eexists _, _.
Qed.

Lemma exception_adds_no_row_witness :
  let r := upload_file (database_down 10) init
             (upload_request "invoice" "a.pdf" "application/pdf"
                five_bytes) in
  documents r.1 = documents init ∧
  next_id r.1 = next_id init ∧
  DatabaseError ≠ ValueError ∧
  (DatabaseError = SuspiciousFileOperation → r.1 = init) ∧
  (DatabaseError = DatabaseError →
   insert_ok (database_down 10) = false ∧
   ∃ k b, media init !! k = None ∧ media r.1 = <[k := b]> (media init)).
Proof.
  intros r.
  apply (exception_adds_no_row (database_down 10) init
           (upload_request "invoice" "a.pdf" "application/pdf" five_bytes)
           DatabaseError).
  vm_compute. reflexivity.
Defined.

(** ** What the form accepts *)

Lemma description_errors_nil form :
  description_errors form = [] ↔
  (String.length (description_value form) ≤ description_max_length)%nat ∧
  Text.contains "000" (description_value form) = false.
Proof.
  unfold description_errors.
  destruct (_ <? _)%nat eqn:Hlen;
    destruct (Text.contains _ _) eqn:Hnul; simpl.
  - split; [done|]. by intros [_ ?].
  - split; [done|]. apply Nat.ltb_lt in Hlen. lia.
  - split; [done|]. by intros [_ ?].
  - apply Nat.ltb_ge in Hlen. done.
Qed.

Lemma is_valid_description form :
  is_valid form = true → description_errors form = [].
Proof.
  intros Hv. pose proof (is_valid_errors _ Hv) as He.
  unfold errors in He. rewrite (is_valid_bound _ Hv) in He.
  apply app_eq_nil in He as [He _].
  by destruct (description_errors form).
Qed.

Lemma description_error_invalid form e :
  is_bound form = true →
  e ∈ description_errors form →
  is_valid form = false ∧ ("description", e) ∈ errors form.
Proof.
  intros Hb He.
  assert (("description", e) ∈ errors form) as Hin.
  { unfold errors. rewrite Hb. apply elem_of_app. left.
    by apply (list_elem_of_fmap_2 (pair "description")). }
  split; [|done].
  unfold is_valid. destruct (errors form); [|by rewrite andb_false_r].
  by apply elem_of_nil in Hin.
Qed.

Lemma lstrip_blank s : blank s = true → Text.lstrip s = EmptyString.
Proof.
  induction s as [|c r IH]; simpl; [done|].
  intros [Hc Hr]%andb_prop. rewrite Hc. by apply IH.
Qed.

Lemma strip_blank s : blank s = true → Text.strip s = EmptyString.
Proof. intros Hs. unfold Text.strip. by rewrite lstrip_blank. Qed.

(** X4.  The bound form validates exactly when the description, with
    the white space around it removed, has at most 255 characters and
    no NUL, and the request has a file part [document] whose name,
    without its directory part, is usable and has at most 100
    characters, and whose body is not empty. *)
Theorem form_valid_iff request :
  is_valid (DocumentForm_bound request) = true ↔
  ((String.length (description_value (DocumentForm_bound request))
      ≤ description_max_length)%nat ∧
   Text.contains "000" (description_value (DocumentForm_bound request))
     = false) ∧
  ∃ part n,
    multipart_files request !! "document" = Some part ∧
    sanitize_file_name (filename part) = Some n ∧
    (String.length n ≤ document_max_length)%nat ∧
    body part ≠ [].
Proof.
  split.
  - intros Hv. split.
    + by apply description_errors_nil, is_valid_description.
    + destruct (is_valid_clean_document _ Hv) as [f Hf].
      apply clean_document_inr in Hf as (Hfile & Hlen & _ & Hbody).
      simpl in Hfile. rewrite FILES_lookup in Hfile.
      apply bind_Some in Hfile as (part & Hp & Hparse).
      unfold parse_file_part in Hparse.
      destruct (sanitize_file_name (filename part)) as [n|] eqn:Hn; [|done].
      injection Hparse as <-. by exists part, n.
  - intros [Hd (part & n & Hp & Hn & Hlen & Hbody)].
    apply description_errors_nil in Hd.
    by destruct (bound_form_valid _ _ _ Hp Hn Hlen Hbody Hd).
Qed.

(** X5.  The description is optional: when a [POST] brings none, or one
    of white space only, and its file validates, the form is valid,
    and a row that [upload_file] saves for it has the empty
    description. *)
Theorem blank_description_accepted `{Storage} request part n :
  match POST request !! "description" with
  | Some v => blank v = true
  | None => True
  end →
  multipart_files request !! "document" = Some part →
  sanitize_file_name (filename part) = Some n →
  (String.length n ≤ document_max_length)%nat →
  body part ≠ [] →
  is_valid (DocumentForm_bound request) = true ∧
  ∀ env st,
    let r := upload_file env st request in
    r.2 = redirect "file_list" →
    ∃ d : Document,
      documents r.1 = documents st ++ [d] ∧ description d = EmptyString.
Proof.
  intros Hblank Hp Hn Hlen Hbody.
  assert (description_value (DocumentForm_bound request) = EmptyString)
    as Hvalue.
  { unfold description_value. simpl.
    destruct (POST request !! "description"); [|done].
    by apply strip_blank. }
  assert (description_errors (DocumentForm_bound request) = []) as Hd.
  { apply description_errors_nil. rewrite Hvalue. simpl. split; [lia|done]. }
  split; [by destruct (bound_form_valid _ _ _ Hp Hn Hlen Hbody Hd)|].
  intros env st r. unfold r.
  destruct (upload_file_outcome env st request); try done.
  intros _. eexists. split; [done|]. simpl. exact Hvalue.
Qed.

Lemma blank_description_accepted_witness :
  let request :=
    upload_without_description "a.pdf" "application/pdf" five_bytes in
  is_valid (DocumentForm_bound request) = true ∧
  ∀ env st,
    let r := upload_file env st request in
    r.2 = redirect "file_list" →
    ∃ d : Document,
      documents r.1 = documents st ++ [d] ∧ description d = EmptyString.
Proof.
  intros request.
  apply (blank_description_accepted request
           {| filename := "a.pdf"; part_content_type := "application/pdf";
              body := five_bytes |} "a.pdf").
  - vm_compute. exact I.
  - vm_compute. reflexivity.
  - vm_compute. reflexivity.
  - vm_compute. lia.
  - discriminate.
Defined.

(** X6.  A [POST] whose description, with the white space around it
    removed, has more than 255 characters is not saved, whatever file
    comes with it: the state is unchanged, and the form page comes
    back with the error [max_length] for [description]. *)
Theorem long_description_rejected `{Storage} env st request v :
  method request = "POST" →
  POST request !! "description" = Some v →
  (description_max_length < String.length (Text.strip v))%nat →
  upload_file env st request =
    (st, render "myapp/upload_file.html"
           (ctx_form (DocumentForm_bound request))) ∧
  ("description", E_max_length) ∈ errors (DocumentForm_bound request).
Proof.
  intros Hm Hv Hlen.
  assert (E_max_length ∈ description_errors (DocumentForm_bound request))
    as Hin.
  { unfold description_errors, description_value. simpl. rewrite Hv.
    apply Nat.ltb_lt in Hlen. rewrite Hlen. apply elem_of_app. left.
    by left. }
  apply description_error_invalid in Hin as [Hinv Hin]; [|done].
  split; [by apply upload_file_invalid|done].
Qed.

Lemma long_description_rejected_witness :
  let request :=
    upload_request (letters 256) "a.pdf" "application/pdf" five_bytes in
  upload_file (at_time 10) init request =
    (init, render "myapp/upload_file.html"
             (ctx_form (DocumentForm_bound request))) ∧
  ("description", E_max_length) ∈ errors (DocumentForm_bound request).
Proof.
  intros request.
  apply (long_description_rejected (at_time 10) init request (letters 256)).
  - reflexivity.
  - vm_compute. reflexivity.
  - vm_compute. lia.
Defined.

(** Characters count once each, whatever their code point: 255 times
    the letter of code point 233 is a description that the form
    accepts, 256 times is not; and the no-break space (160) around a
    description is white space that the form strips. *)
Example accented_description_fits :
  is_valid
    (DocumentForm_bound
       (upload_request (copies "233" 255) "a.pdf" "application/pdf"
          five_bytes)) = true.
Proof. vm_compute. reflexivity. Qed.

Example accented_description_too_long :
  errors
    (DocumentForm_bound
       (upload_request (copies "233" 256) "a.pdf" "application/pdf"
          five_bytes)) = [("description", E_max_length)].
Proof. vm_compute. reflexivity. Qed.

Example no_break_space_stripped :
  description_value
    (DocumentForm_bound
       (upload_request
          (String "160" ("caf" +:+ String "233" (String "160" " ")))
          "a.pdf" "application/pdf" five_bytes))
  = "caf" +:+ String "233" EmptyString.
Proof. vm_compute. reflexivity. Qed.

(** ** Routing *)

Lemma strip_prefix_Some p s r :
  Text.strip_prefix p s = Some r → s = p +:+ r.
Proof.
  revert s. induction p as [|a p IH]; intros s; simpl.
  - by intros [= <-].
  - destruct s as [|b s]; [done|].
    destruct (Ascii.eqb a b) eqn:Hab; [|done].
    apply Ascii.eqb_eq in Hab as <-. intros Hr. by rewrite (IH s Hr).
Qed.

(** X7.  Of all URLs only [/upload/] can change anything: a request to
    any other path leaves the table, the sequence and the stored files
    as they are. *)
Theorem only_upload_changes_state `{Storage} guess_type st ev :
  path ev ≠ "/upload/" → (handle guess_type st ev).1 = st.
Proof.
  intros Hpath. unfold handle.
  destruct (Text.strip_prefix "/" (path ev)) as [route|] eqn:Hroute; [|done].
  apply strip_prefix_Some in Hroute. unfold urlpatterns.
  destruct (Text.strip_prefix "admin/" route); [done|].
  destruct (String.eqb route "upload/") eqn:Hup.
  { apply String.eqb_eq in Hup. subst route. by rewrite Hroute in Hpath. }
  destruct (String.eqb route EmptyString); [done|].
  destruct (DEBUG (env ev)); [|done].
  destruct (Text.strip_prefix "media/" route); [|done].
  apply serve_state.
Qed.

Lemma only_upload_changes_state_witness :
  (handle example_guess_type init
     {| path := "/";
        request := upload_request "invoice" "a.pdf" "application/pdf"
                     five_bytes;
        env := at_time 10 |}).1 = init.
Proof.
  apply (only_upload_changes_state example_guess_type init
           {| path := "/";
              request := upload_request "invoice" "a.pdf" "application/pdf"
                           five_bytes;
              env := at_time 10 |}).
  discriminate.
Defined.



(** ** Histories *)

Lemma run_ind_handle `{Storage} guess_type (P : State → Prop) :
  (∀ st ev, P st → P (handle guess_type st ev).1) →
  ∀ st evs, P st → P (run guess_type st evs).
Proof.
  intros Hstep st evs. revert st.
  induction evs as [|ev evs IH]; intros st HP; [done|].
  rewrite run_cons. by apply IH, Hstep.
Qed.

(** What a request does is what [upload_file] does, or nothing. *)
Lemma handle_outcome `{Storage} guess_type st ev :
  (handle guess_type st ev).1 = st ∨
  upload_outcome (env ev) st (request ev)
    (handle guess_type st ev).1 (handle guess_type st ev).2.
Proof.
  unfold handle.
  destruct (Text.strip_prefix "/" (path ev)) as [route|]; [|by left].
  unfold urlpatterns.
  destruct (Text.strip_prefix "admin/" route); [by left|].
  destruct (String.eqb route "upload/"); [right; apply upload_file_outcome|].
  destruct (String.eqb route EmptyString); [by left|].
  destruct (DEBUG (env ev)); [|by left].
  destruct (Text.strip_prefix "media/" route); [|by left].
  left. apply serve_state.
Qed.

(** X9.  Every description in the table is one the form has cleaned:
    in every state that requests lead to, each row's description has
    at most 255 characters and no NUL, as the column requires. *)
Theorem stored_descriptions_fit `{Storage} guess_type evs :
  Forall description_fits (documents (run guess_type init evs)).
Proof.
  apply (run_ind_handle guess_type
           (λ st, Forall description_fits (documents st)));
    [|by constructor].
  intros st ev Hst.
  destruct (handle_outcome guess_type st ev) as [->|Hout]; [done|].
  destruct Hout as [| | | |f k Hm Hv Hf Hk Hok]; try done.
  simpl. apply Forall_app. split; [done|].
  constructor; [|constructor].
  by apply description_errors_nil, is_valid_description.
Qed.

Lemma ascending_time_snoc l d :
  ascending_time l →
  Forall (λ a, uploaded_at a ≤ uploaded_at d) l →
  ascending_time (l ++ [d]).
Proof.
  unfold ascending_time. induction 1 as [|a l Hl IH Ha]; intros Hd; simpl.
  - repeat constructor.
  - apply Forall_cons in Hd as [Had Hd]. constructor; [by apply IH|].
    apply Forall_app. split; [done|by constructor].
Qed.

Lemma run_ascending_time `{Storage} guess_type evs st :
  StronglySorted Z.le (clock evs) →
  ascending_time (documents st) →
  Forall (λ d, Forall (λ t, uploaded_at d ≤ t) (clock evs)) (documents st) →
  ascending_time (documents (run guess_type st evs)).
Proof.
  revert st. induction evs as [|ev evs IH]; intros st Hclock Hasc Hbefore;
    [done|].
  rewrite run_cons. unfold clock in Hclock. rewrite fmap_cons in Hclock.
  apply StronglySorted_inv in Hclock as [Hclock Hev].
  assert (Forall (λ d, uploaded_at d ≤ now (env ev) ∧
                       Forall (λ t, uploaded_at d ≤ t) (clock evs))
            (documents st)) as Hsplit.
  { eapply Forall_impl; [exact Hbefore|]. intros d Hd.
    unfold clock in Hd. rewrite fmap_cons in Hd.
    by apply Forall_cons in Hd. }
  apply Forall_and in Hsplit as [Hnow Hlater].
  apply IH; [done|..];
    destruct (handle_rows guess_type st ev) as [Heq|(d & Heq & _ & Ht)];
    rewrite Heq; try done.
  - apply ascending_time_snoc; [done|]. by rewrite Ht.
  - apply Forall_app. split; [done|]. constructor; [|constructor].
    by rewrite Ht.
Qed.

(** X10.  When the clock never goes back from one request to the next,
    the listing is in the order of upload, oldest first: [uploaded_at]
    never decreases along the rows that [file_list] hands to the
    template. *)
Theorem listing_oldest_first `{Storage} guess_type evs request :
  StronglySorted Z.le (clock evs) →
  ∃ l,
    file_list (run guess_type init evs) request =
      (run guess_type init evs,
       render "myapp/file_list.html" (ctx_documents l)) ∧
    ascending_time l.
Proof.
  intros Hclock. eexists. split; [reflexivity|].
  apply run_ascending_time; [done|constructor..].
Qed.

Lemma listing_oldest_first_witness :
  ∃ l,
    file_list
      (run example_guess_type init
         [upload_event (at_time 10)
            (upload_request "first" "a.pdf" "application/pdf" five_bytes);
          upload_event (at_time 20)
            (upload_request "second" "b.txt" "text/plain" five_bytes)])
      get_request =
      (run example_guess_type init
         [upload_event (at_time 10)
            (upload_request "first" "a.pdf" "application/pdf" five_bytes);
          upload_event (at_time 20)
            (upload_request "second" "b.txt" "text/plain" five_bytes)],
       render "myapp/file_list.html" (ctx_documents l)) ∧
    ascending_time l.
Proof.
  apply (listing_oldest_first example_guess_type
           [upload_event (at_time 10)
              (upload_request "first" "a.pdf" "application/pdf" five_bytes);
            upload_event (at_time 20)
              (upload_request "second" "b.txt" "text/plain" five_bytes)]
           get_request).
  vm_compute. repeat constructor; discriminate.
Defined.

(** ** Rows and files *)

(** X11.  The listing has no broken links while [DEBUG] is on: in
    every state that requests lead to, following the link of any row
    returns a file, with the content type guessed from its name.  With
    [DEBUG] off the same link is answered with [Http404]. *)
Theorem listed_links_resolve `{Storage} guess_type evs e d :
  d ∈ documents (run guess_type init evs) →
  let st := run guess_type init evs in
  if DEBUG e
  then ∃ b, handle guess_type st (download_event e d) =
              (st, FileResponse b (guess_type (document d)))
  else handle guess_type st (download_event e d) = (st, Http404).
Proof.
  intros Hd st. destruct (DEBUG e) eqn:Hdebug.
  - rewrite handle_download by done.
    pose proof (consistent_stored _
      (run_consistent guess_type init evs init_consistent)) as Hsto.
    rewrite Forall_forall in Hsto. destruct (Hsto d Hd) as [b Hb].
    exists b. unfold serve. fold st in Hb. by rewrite Hb.
  - unfold handle, urlpatterns. simpl. by rewrite Hdebug.
Qed.

Lemma listed_links_resolve_witness :
  let evs := [upload_event (at_time 10)
                (upload_request "invoice" "a.pdf" "application/pdf"
                   five_bytes)] in
  let d := {| pk := 1; description := "invoice";
              document := "documents/a.pdf"; uploaded_at := 10 |} in
  let st := run example_guess_type init evs in
  ∃ b, handle example_guess_type st (download_event (at_time 20) d) =
         (st, FileResponse b (example_guess_type (document d))).
Proof.
  intros evs d.
  apply (listed_links_resolve example_guess_type evs (at_time 20) d).
  vm_compute. left.
Defined.

(** X12.  No request deletes or overwrites a stored file: a file that
    is in the storage stays there under its name with the same bytes
    through any sequence of requests, and [serve] keeps returning
    them. *)
Theorem stored_files_never_change `{Storage} guess_type st evs p b :
  media st !! p = Some b →
  media (run guess_type st evs) !! p = Some b ∧
  serve guess_type (run guess_type st evs) p =
    (run guess_type st evs, FileResponse b (guess_type p)).
Proof.
  intros Hp.
  assert (media (run guess_type st evs) !! p = Some b) as Hlater.
  { eapply lookup_weaken; [done|apply run_media]. }
  split; [done|]. unfold serve. by rewrite Hlater.
Qed.

Lemma stored_files_never_change_witness :
  let st := run example_guess_type init
    [upload_event (at_time 10)
       (upload_request "one" "a.pdf" "application/pdf" five_bytes)] in
  let evs :=
    [upload_event (at_time 20)
       (upload_request "two" "a.pdf" "application/pdf" [Byte.x00])] in
  media (run example_guess_type st evs) !! "documents/a.pdf"
    = Some five_bytes ∧
  serve example_guess_type (run example_guess_type st evs)
    "documents/a.pdf" =
    (run example_guess_type st evs,
     FileResponse five_bytes (example_guess_type "documents/a.pdf")).
Proof.
  intros st evs.
  apply (stored_files_never_change example_guess_type st evs
           "documents/a.pdf" five_bytes).
  vm_compute. reflexivity.
Defined.

Lemma run_files_have_rows `{Storage} guess_type evs st :
  Forall (λ ev, insert_ok (env ev) = true) evs →
  dom (media st) = document_names st →
  dom (media (run guess_type st evs)) =
    document_names (run guess_type st evs).
Proof.
  revert st. induction evs as [|ev evs IH]; intros st Hok Hst; [done|].
  apply Forall_cons in Hok as [Hev Hok].
  rewrite run_cons. apply IH; [done|].
  destruct (handle_outcome guess_type st ev) as [->|Hout]; [done|].
  destruct Hout as [| | |f k _ _ _ _ Hfail|f k _ _ _ _ _]; try done.
  - congruence.
  - unfold document_names. simpl.
    rewrite dom_insert_L, fmap_app, list_to_set_app_L.
    unfold document_names in Hst. rewrite Hst. simpl.
    rewrite (right_id_L ∅ (∪)). apply (comm_L (∪)).
Qed.

(** X13.  As long as no [INSERT] fails, the storage holds exactly the
    files of the rows: every file under [MEDIA_ROOT] is the file of a
    row, and every row has its file. *)
Theorem files_are_the_rows_files `{Storage} guess_type evs :
  Forall (λ ev, insert_ok (env ev) = true) evs →
  dom (media (run guess_type init evs)) =
    document_names (run guess_type init evs).
Proof. intros Hok. by apply run_files_have_rows. Qed.

Lemma files_are_the_rows_files_witness :
  let evs :=
    [upload_event (at_time 10)
       (upload_request "one" "a.pdf" "application/pdf" five_bytes);
     upload_event (at_time 20) (no_file_request "two");
     upload_event (at_time 30)
       (upload_request "three" "@@@" "text/plain" five_bytes)] in
  dom (media (run example_guess_type init evs)) =
    document_names (run example_guess_type init evs).
Proof.
  intros evs.
  apply (files_are_the_rows_files example_guess_type evs).
  repeat constructor.
Defined.

Lemma handle_redirect `{Storage} guess_type st ev :
  is_redirect (handle guess_type st ev).2 = true ∧
    length (documents (handle guess_type st ev).1) =
      S (length (documents st)) ∨
  is_redirect (handle guess_type st ev).2 = false ∧
    documents (handle guess_type st ev).1 = documents st.
Proof.
  unfold handle.
  destruct (Text.strip_prefix "/" (path ev)) as [route|]; [|by right].
  unfold urlpatterns.
  destruct (Text.strip_prefix "admin/" route); [by right|].
  destruct (String.eqb route "upload/").
  { destruct (upload_file_outcome (env ev) st (request ev));
      [by right..|left]. simpl. rewrite length_app. simpl. split; [done|lia]. }
  destruct (String.eqb route EmptyString); [by right|].
  destruct (DEBUG (env ev)); [|by right].
  destruct (Text.strip_prefix "media/" route); [|by right].
  unfold serve. destruct (media st !! _); by right.
Qed.

(** X15.  The table has one row for each request that was answered with
    the redirect to [file_list], and no other: after any sequence of
    requests the number of rows is the number there was before plus
    the number of redirects among the responses. *)
Theorem rows_count_redirects `{Storage} guess_type st evs :
  length (documents (run guess_type st evs)) =
  (length (documents st) +
   length (List.filter is_redirect (responses guess_type st evs)))%nat.
Proof.
  revert st. induction evs as [|ev evs IH]; intros st; [simpl; lia|].
  rewrite run_cons, IH. cbn [responses List.filter].
  destruct (handle_redirect guess_type st ev) as [[-> Hlen]|[-> Heq]].
  - rewrite Hlen. simpl. lia.
  - by rewrite Heq.
Qed.
